(** * reactchat/src/App.tsx: the route table and the root component

    The module under study builds, at load time, one router from a JSX
    route tree and exports a root component that hands this router to
    [RouterProvider].  The development embeds

    - the JSX elements written in [App.tsx] ([React]),
    - the functions of the routing library that [App.tsx] calls or that
      decide what the router does with its table ([ReactRouter]):
      [createRoutesFromElements], [createBrowserRouter], [flattenRoutes],
      [rankRouteBranches], [matchPath], [matchRouteBranch], [matchRoutes]
      and the rendering of a match chain,
    - the module itself ([AppModule]): its top-level binding [router],
      the component [App] and its export list,
    - the closed forms the proofs compare the module with ([Expected]).

    Effects are explicit: a world holds the browser location and the heap
    of router objects, and every operation is a function in a small
    state-and-failure monad over that world. *)

From Stdlib Require Import String Ascii List Bool Arith Lia.
Import ListNotations.
Open Scope string_scope.
Open Scope list_scope.
Set Warnings "-register-all".

(** ** String helpers corresponding to the JavaScript string operations used *)

Module Str.

Definition slash : ascii := "/"%char.

Definition is_slash (c : ascii) : bool := Ascii.eqb c slash.

(** [s] matches [/^\/*$/]. *)
Fixpoint all_slashes (s : string) : bool :=
  match s with
  | EmptyString => true
  | String c r => is_slash c && all_slashes r
  end.

(** [s.replace(/^\/*/, "")]. *)
Fixpoint strip_leading_slashes (s : string) : string :=
  match s with
  | EmptyString => EmptyString
  | String c r => if is_slash c then strip_leading_slashes r else s
  end.

(** [s.replace(/\/*$/, "")]. *)
Fixpoint strip_trailing_slashes (s : string) : string :=
  match s with
  | EmptyString => EmptyString
  | String c r =>
      if is_slash c && all_slashes r then EmptyString
      else String c (strip_trailing_slashes r)
  end.

(** [s.slice(n)]. *)
Fixpoint slice (n : nat) (s : string) : string :=
  match n, s with
  | O, _ => s
  | S n', String _ r => slice n' r
  | S _, EmptyString => EmptyString
  end.

(** [s.slice(0, n)]. *)
Fixpoint take (n : nat) (s : string) : string :=
  match n, s with
  | S n', String c r => String c (take n' r)
  | _, _ => EmptyString
  end.

(** [s.startsWith(p)]. *)
Definition startsWith (p s : string) : bool := String.prefix p s.

(** ASCII lower-casing, the case folding of a regular expression with the
    [i] flag restricted to ASCII letters. *)
Definition lower (c : ascii) : ascii :=
  let n := nat_of_ascii c in
  if ((65 <=? n)%nat && (n <=? 90)%nat)%bool then ascii_of_nat (n + 32) else c.

Definition char_eqb (caseSensitive : bool) (a b : ascii) : bool :=
  if caseSensitive then Ascii.eqb a b else Ascii.eqb (lower a) (lower b).

(** If [s] begins with the literal [p] (up to case when [caseSensitive] is
    off) return what follows it. *)
Fixpoint strip_literal (caseSensitive : bool) (p s : string) : option string :=
  match p, s with
  | EmptyString, _ => Some s
  | String a p', String b s' =>
      if char_eqb caseSensitive a b then strip_literal caseSensitive p' s'
      else None
  | String _ _, EmptyString => None
  end.

(** [s.replace(/\/\/+/g, "/")]: every run of slashes becomes one slash.
    [after_slash] tells that the previous character was a slash. *)
Fixpoint collapse_from (after_slash : bool) (s : string) : string :=
  match s with
  | EmptyString => EmptyString
  | String c r =>
      if is_slash c
      then if after_slash then collapse_from true r
           else String c (collapse_from true r)
      else String c (collapse_from false r)
  end.

Definition collapse_slashes (s : string) : string := collapse_from false s.

(** [parts.join("/")]. *)
Fixpoint join_slash (parts : list string) : string :=
  match parts with
  | [] => EmptyString
  | [p] => p
  | p :: ps => p ++ String slash (join_slash ps)
  end.

(** [s.split("/")]. *)
Fixpoint split_slash (s : string) : list string :=
  match s with
  | EmptyString => [EmptyString]
  | String c r =>
      if is_slash c then EmptyString :: split_slash r
      else match split_slash r with
           | seg :: segs => String c seg :: segs
           | [] => [String c EmptyString]
           end
  end.

(** The class [.] of a regular expression without the [s] flag: any
    character but a line terminator. *)
Definition dot (c : ascii) : bool :=
  negb (Ascii.eqb c "010"%char) && negb (Ascii.eqb c "013"%char).

(** [s.replace(/(.)\/+$/, "$1")]: the leftmost character that is followed
    by nothing but one or more slashes keeps its place, the slashes go. *)
Fixpoint strip_base (s : string) : string :=
  match s with
  | EmptyString => EmptyString
  | String c r =>
      if dot c && negb (String.eqb r EmptyString) && all_slashes r
      then String c EmptyString
      else String c (strip_base r)
  end.

End Str.

(** ** React: the elements that [App.tsx] writes *)

Module React.

(** Page components imported by the module; their bodies live elsewhere. *)
Inductive component : Type :=
| Home.

(** A reference to a heap-allocated router object. *)
Definition ref := nat.

(** JSX elements.  [Route] carries the two props the source sets on it
    ([path], [element]) and its children; every other prop is absent. *)
Inductive element : Type :=
| Jsx (c : component)
| Route (path : option string) (elem : option element) (children : list element)
| RouterProvider (router : ref).

(** JavaScript values a caller may pass to a component. *)
Inductive jsval : Type :=
| VUndefined
| VNull
| VBool (b : bool)
| VNum (n : nat)
| VStr (s : string)
| VObj (fields : list (string * jsval)).

End React.

(** ** The routing library, as far as the module relies on it *)

Module ReactRouter.
Import Str React.

(** *** Route objects *)

(** A route object as [createRoutesFromElements] produces it: [id] is the
    position of the element in the JSX tree ([0], [0-0], ...), [path] and
    [element] are copied from the props and are [None] when the prop is
    not written. *)
Inductive RouteObject : Type :=
| mkRoute (id : list nat) (path : option string) (elem : option element)
          (children : list RouteObject).

Definition route_id (r : RouteObject) : list nat :=
  match r with mkRoute i _ _ _ => i end.
Definition route_path (r : RouteObject) : option string :=
  match r with mkRoute _ p _ _ => p end.
Definition route_element (r : RouteObject) : option element :=
  match r with mkRoute _ _ e _ => e end.
Definition route_children (r : RouteObject) : list RouteObject :=
  match r with mkRoute _ _ _ c => c end.

(** [createRoutesFromChildren]: every child has to be a [<Route>] (the
    library's invariant throws otherwise, here [None]); its children are
    converted under the extended tree path. *)
Fixpoint routeFromElement (treePath : list nat) (e : element)
  : option RouteObject :=
  match e with
  | Route p el ch =>
      let fix each (index : nat) (l : list element)
        : option (list RouteObject) :=
        match l with
        | [] => Some []
        | c :: l' =>
            match routeFromElement (treePath ++ [index]) c,
                  each (S index) l' with
            | Some r, Some rs => Some (r :: rs)
            | _, _ => None
            end
        end in
      match each 0 ch with
      | Some rs => Some (mkRoute treePath p el rs)
      | None => None
      end
  | _ => None
  end.

Fixpoint createRoutesFromChildren (parentPath : list nat) (index : nat)
  (children : list element) : option (list RouteObject) :=
  match children with
  | [] => Some []
  | c :: l =>
      match routeFromElement (parentPath ++ [index]) c,
            createRoutesFromChildren parentPath (S index) l with
      | Some r, Some rs => Some (r :: rs)
      | _, _ => None
      end
  end.

(** [createRoutesFromElements(children)], called with one element. *)
Definition createRoutesFromElements (children : element)
  : option (list RouteObject) :=
  createRoutesFromChildren [] 0 [children].

(** All route objects of a table, parents before their children. *)
Fixpoint route_nodes (r : RouteObject) : list RouteObject :=
  match r with
  | mkRoute _ _ _ ch =>
      r :: (fix each (l : list RouteObject) : list RouteObject :=
              match l with
              | [] => []
              | c :: l' => route_nodes c ++ each l'
              end) ch
  end.

Definition all_routes (routes : list RouteObject) : list RouteObject :=
  flat_map route_nodes routes.

Definition is_some {A : Type} (o : option A) : bool :=
  match o with Some _ => true | None => false end.

(** A route entry is a route object that says something about a path or
    a page; a route with neither is a mere wrapper around its children. *)
Definition is_entry (r : RouteObject) : bool :=
  is_some (route_path r) || is_some (route_element r).

Definition route_entries (routes : list RouteObject) : list RouteObject :=
  filter is_entry (all_routes routes).

(** The (path, page) pairs of a table. *)
Definition path_page_pairs (routes : list RouteObject)
  : list (string * element) :=
  flat_map
    (fun r =>
       match route_path r, route_element r with
       | Some p, Some e => [(p, e)]
       | _, _ => []
       end)
    (all_routes routes).

(** *** Paths *)

(** [joinPaths(paths)]. *)
Definition joinPaths (paths : list string) : string :=
  collapse_slashes (join_slash paths).

(** [normalizePathname(pathname)]. *)
Definition normalizePathname (pathname : string) : string :=
  String slash (strip_leading_slashes (strip_trailing_slashes pathname)).

(** The patterns covered here are the static ones: no dynamic segment
    ([:id]), no optional segment ([?]) and no splat ([*]). *)
Fixpoint static_chars (s : string) : bool :=
  match s with
  | EmptyString => true
  | String c r =>
      negb (Ascii.eqb c ":"%char) && negb (Ascii.eqb c "?"%char)
      && negb (Ascii.eqb c "*"%char) && static_chars r
  end.

Definition static_route (r : RouteObject) : bool :=
  match route_path r with
  | None => true
  | Some p => static_chars p
  end.

(** A splat route ([path] ending in [*]) is how a table declares a
    fallback that catches the locations nothing else matches. *)
Fixpoint ends_with_star (s : string) : bool :=
  match s with
  | EmptyString => false
  | String c EmptyString => Ascii.eqb c "*"%char
  | String _ r => ends_with_star r
  end.

Definition is_fallback_route (r : RouteObject) : bool :=
  match route_path r with
  | None => false
  | Some p => ends_with_star p
  end.

(** *** [matchPath] *)

Record PathMatch : Type := mkPathMatch {
  pm_pathname : string;      (* the text the pattern matched *)
  pm_pathnameBase : string   (* the same without trailing slashes *)
}.

(** [matchPath({ path, caseSensitive, end }, pathname)] for a static
    [path].  [compilePath] turns [path] into the regular expression
    [^ + lit + tail], where [lit] is [path] without trailing slashes and
    with exactly one leading slash, and [tail] is
    - [\/*$] when [end] is set,
    - the look-ahead [(?=\/|$)] when [end] is not set and [path] is
      neither empty nor ["/"],
    - nothing otherwise.
    The result holds the matched text. *)
Definition matchPath (path : string) (caseSensitive end_ : bool)
  (pathname : string) : option PathMatch :=
  let lit := String slash (strip_leading_slashes (strip_trailing_slashes path)) in
  match strip_literal caseSensitive lit pathname with
  | None => None
  | Some rest =>
      let matched :=
        if end_ then
          if all_slashes rest then Some pathname else None
        else if negb (String.eqb path "") && negb (String.eqb path "/") then
          match rest with
          | EmptyString => Some (take (String.length lit) pathname)
          | String c _ =>
              if is_slash c
              then Some (take (String.length lit) pathname)
              else None
          end
        else Some (take (String.length lit) pathname) in
      match matched with
      | None => None
      | Some m => Some (mkPathMatch m (strip_base m))
      end
  end.

(** *** Branches *)

Record RouteMeta : Type := mkMeta {
  relativePath : string;
  childrenIndex : nat;
  route : RouteObject
}.

Record RouteBranch : Type := mkBranch {
  branch_path : string;
  score : nat;
  routesMeta : list RouteMeta
}.

(** [computeScore(path, index)] for a static path of a route that is not
    an index route: the number of segments, plus 1 for every empty
    segment and 10 for every other one. *)
Definition computeScore (path : string) : nat :=
  let segments := split_slash path in
  fold_left
    (fun sc seg => sc + (if String.eqb seg "" then 1 else 10))
    segments (List.length segments).

(** [flattenRoutes]: one branch for every route that has a path, listing
    the routes from the root of the table down to it; the branches of the
    children come before the branch of their parent.  A child with an
    absolute path that does not start with the path of its parent breaks
    the library's invariant ([None]). *)
Fixpoint flattenRoute (parentsMeta : list RouteMeta) (parentPath : string)
  (index : nat) (r : RouteObject) : option (list RouteBranch) :=
  match r with
  | mkRoute _ p _ ch =>
      let written := match p with Some s => s | None => "" end in
      let relative :=
        if startsWith "/" written then
          if startsWith parentPath written
          then Some (slice (String.length parentPath) written)
          else None
        else Some written in
      match relative with
      | None => None
      | Some rel =>
          let meta := mkMeta rel index r in
          let path := joinPaths [parentPath; rel] in
          let metas := parentsMeta ++ [meta] in
          let fix each (i : nat) (l : list RouteObject)
            : option (list RouteBranch) :=
            match l with
            | [] => Some []
            | c :: l' =>
                match flattenRoute metas path i c, each (S i) l' with
                | Some bs, Some bs' => Some (bs ++ bs')
                | _, _ => None
                end
            end in
          match each 0 ch with
          | None => None
          | Some below =>
              Some (below ++
                    match p with
                    | None => []
                    | Some _ => [mkBranch path (computeScore path) metas]
                    end)
          end
      end
  end.

Fixpoint flattenFrom (index : nat) (routes : list RouteObject)
  : option (list RouteBranch) :=
  match routes with
  | [] => Some []
  | r :: l =>
      match flattenRoute [] "" index r, flattenFrom (S index) l with
      | Some bs, Some bs' => Some (bs ++ bs')
      | _, _ => None
      end
  end.

Definition flattenRoutes (routes : list RouteObject)
  : option (list RouteBranch) :=
  flattenFrom 0 routes.

(** [compareIndexes]: two branches are siblings when their index lists
    have the same length and agree up to the last position. *)
Fixpoint siblings (a b : list nat) : bool :=
  match a, b with
  | [_], [_] => true
  | x :: a', y :: b' => (x =? y)%nat && siblings a' b'
  | _, _ => false
  end.

(** [x] has to come before [a] although [a] was first in the input: it
    has the higher score, or the same score as a sibling declared
    earlier. *)
Definition goes_first (x a : RouteBranch) : bool :=
  let ia := map childrenIndex (routesMeta a) in
  let ix := map childrenIndex (routesMeta x) in
  (score a <? score x)%nat
  || ((score a =? score x)%nat && siblings ia ix
      && (last ix 0 <? last ia 0)%nat).

Fixpoint insertBranch (a : RouteBranch) (sorted : list RouteBranch)
  : list RouteBranch :=
  match sorted with
  | [] => [a]
  | x :: l => if goes_first x a then x :: insertBranch a l else a :: sorted
  end.

(** [rankRouteBranches]: a stable sort. *)
Definition rankRouteBranches (branches : list RouteBranch)
  : list RouteBranch :=
  fold_right insertBranch [] branches.

(** *** Matching *)

Record RouteMatch : Type := mkMatch {
  match_pathname : string;
  match_pathnameBase : string;
  match_route : RouteObject
}.

(** The loop of [matchRouteBranch]: [matchedPathname] is what the routes
    above have consumed; only the last route of the branch has to match
    to the end of the pathname. *)
Fixpoint matchMetas (metas : list RouteMeta) (matchedPathname pathname : string)
  : option (list RouteMatch) :=
  match metas with
  | [] => Some []
  | meta :: rest =>
      let end_ := match rest with [] => true | _ => false end in
      let remainingPathname :=
        if String.eqb matchedPathname "/" then pathname
        else match slice (String.length matchedPathname) pathname with
             | EmptyString => "/"
             | s => s
             end in
      match matchPath (relativePath meta) false end_ remainingPathname with
      | None => None
      | Some m =>
          let here :=
            mkMatch (joinPaths [matchedPathname; pm_pathname m])
                    (normalizePathname
                       (joinPaths [matchedPathname; pm_pathnameBase m]))
                    (route meta) in
          let matchedPathname' :=
            if String.eqb (pm_pathnameBase m) "/" then matchedPathname
            else joinPaths [matchedPathname; pm_pathnameBase m] in
          match matchMetas rest matchedPathname' pathname with
          | None => None
          | Some ms => Some (here :: ms)
          end
      end
  end.

Definition matchRouteBranch (branch : RouteBranch) (pathname : string)
  : option (list RouteMatch) :=
  matchMetas (routesMeta branch) "/" pathname.

Fixpoint firstMatch (branches : list RouteBranch) (pathname : string)
  : option (list RouteMatch) :=
  match branches with
  | [] => None
  | b :: l =>
      match matchRouteBranch b pathname with
      | Some ms => Some ms
      | None => firstMatch l pathname
      end
  end.

(** The branches of a table that match a pathname, whatever their rank. *)
Definition matchingBranches (branches : list RouteBranch) (pathname : string)
  : list RouteBranch :=
  filter (fun b => is_some (matchRouteBranch b pathname)) branches.

(** The outcome of a call that may throw. *)
Inductive completion (A : Type) : Type :=
| Return (a : A)
| Throw.
Arguments Return {A} a.
Arguments Throw {A}.

(** [matchRoutes(routes, location)] with the default basename ["/"]: an
    empty pathname counts as ["/"], and the first branch in rank order
    that matches wins.  [Return None] is the library's [null].
    Percent-decoding of the pathname is left out; it neither adds a slash
    to a pathname nor takes one away. *)
Definition matchRoutes (routes : list RouteObject) (pathname : string)
  : completion (option (list RouteMatch)) :=
  let pathname := if String.eqb pathname "" then "/" else pathname in
  match flattenRoutes routes with
  | None => Throw
  | Some branches => Return (firstMatch (rankRouteBranches branches) pathname)
  end.

(** The route entries a location resolves to. *)
Definition matched_entries (routes : list RouteObject) (pathname : string)
  : list RouteObject :=
  match matchRoutes routes pathname with
  | Return (Some ms) => filter is_entry (map match_route ms)
  | _ => []
  end.

(** *** Rendering a match chain *)

(** What a chain of matches shows: the element of a route, rendered with
    the output of the routes below it as its outlet. *)
Inductive rendered : Type :=
| RNull
| RElement (e : element) (outlet : rendered).

(** [_renderMatches]: from the last match upwards; a route without an
    element shows its outlet. *)
Definition renderMatches (matches : list RouteMatch) : rendered :=
  fold_right
    (fun m outlet =>
       match route_element (match_route m) with
       | Some e => RElement e outlet
       | None => outlet
       end)
    RNull matches.

(** *** Router objects and the world they live in *)

Record Router : Type := mkRouter {
  routes : list RouteObject;
  basename : string
}.

(** The world: the pathname of the browser location and the heap of
    router objects, addressed by position.  Objects are never freed, so
    the length of the heap is the number of routers constructed so far. *)
Record world : Type := mkWorld {
  location : string;
  routers : list Router
}.

(** Computations that read and change the world and may throw. *)
Definition M (A : Type) : Type := world -> completion (A * world).

Definition ret {A : Type} (a : A) : M A := fun w => Return (a, w).

Definition bind {A B : Type} (m : M A) (k : A -> M B) : M B :=
  fun w =>
    match m w with
    | Throw => Throw
    | Return (a, w') => k a w'
    end.

Definition throw {A : Type} : M A := fun _ => Throw.

Definition liftOption {A : Type} (o : option A) : M A :=
  match o with
  | Some a => ret a
  | None => throw
  end.

Notation "x <- m ;; k" := (bind m (fun x => k))
  (at level 61, m at next level, right associativity).

(** [createBrowserRouter(routes)]: the table must not be empty and is
    matched once against the current location (which throws if the table
    breaks the invariant of [flattenRoutes]); then a new router object
    holding the table is allocated and its reference returned. *)
Definition createBrowserRouter (rs : list RouteObject) : M ref :=
  fun w =>
    match rs with
    | [] => Throw
    | _ =>
        match matchRoutes rs (location w) with
        | Throw => Throw
        | Return _ =>
            Return (List.length (routers w),
                    mkWorld (location w) (routers w ++ [mkRouter rs "/"]))
        end
    end.

(** What the display surface shows.  [NoMatch]: the router found no
    route for the location; what it puts on the screen then is outside
    this development. *)
Inductive view : Type :=
| Shown (r : rendered)
| NoMatch.

(** Rendering an element at the root.  A page component shows its own
    output; [<RouterProvider router={r} />] shows the match chain of the
    router [r] for the current location; a bare [<Route>] throws. *)
Definition render (e : element) : M view :=
  fun w =>
    match e with
    | Jsx c => Return (Shown (RElement (Jsx c) RNull), w)
    | Route _ _ _ => Throw
    | RouterProvider r =>
        match nth_error (routers w) r with
        | None => Throw
        | Some rt =>
            match matchRoutes (routes rt) (location w) with
            | Throw => Throw
            | Return None => Return (NoMatch, w)
            | Return (Some ms) => Return (Shown (renderMatches ms), w)
            end
        end
    end.

End ReactRouter.

(** ** The module [App.tsx] *)

Module AppModule.
Import Str React ReactRouter.

(** Lines 6-8: the JSX handed to [createRoutesFromElements]. *)
Definition route_elements : element :=
  Route None None
    [ Route (Some "/") (Some (Jsx Home)) [] ].

(** The top-level bindings of the module. *)
Record bindings : Type := mkBindings {
  router : ref
}.

(** Lines 4-10, evaluated once when the module is loaded:
    [const router = createBrowserRouter(createRoutesFromElements(...))]. *)
Definition module_init : M bindings :=
  table <- liftOption (createRoutesFromElements route_elements) ;;
  r <- createBrowserRouter table ;;
  ret (mkBindings r).

(** A function component: its formal parameters and its body, which
    receives whatever arguments the caller supplies. *)
Record function_component : Type := mkComponent {
  params : list string;
  call : bindings -> list jsval -> M element
}.

(** Lines 12-14: [const App = () => <RouterProvider router={router} />]. *)
Definition App : function_component :=
  mkComponent [] (fun env _ => ret (RouterProvider (router env))).

(** Line 16: [export default App]. *)
Definition exports : list (string * function_component) :=
  [ ("default", App) ].

(** *** Sessions *)

(** What happens after the module is loaded: the host mounts or
    re-renders the root component with some arguments, or a navigation
    makes [pathname] the current location.  A navigation leaves a target
    as it is when the target is plain ([plain_target] below); the library
    rewrites or refuses other targets, and what is said about views after
    a navigation is said for plain targets. *)
Inductive event : Type :=
| Mount (args : list jsval)
| Navigate (pathname : string).

Definition navigate (pathname : string) : M unit :=
  fun w => Return (tt, mkWorld pathname (routers w)).

(** One event; a mount invokes [App] and renders what it returns. *)
Definition step (env : bindings) (ev : event) : M (option (element * view)) :=
  match ev with
  | Mount args =>
      e <- call App env args ;;
      v <- render e ;;
      ret (Some (e, v))
  | Navigate pathname =>
      _ <- navigate pathname ;;
      ret None
  end.

Fixpoint run (env : bindings) (evs : list event)
  : M (list (option (element * view))) :=
  match evs with
  | [] => ret []
  | ev :: rest =>
      o <- step env ev ;;
      os <- run env rest ;;
      ret (o :: os)
  end.

(** The world in which the module is loaded. *)
Definition initial_world (pathname : string) : world := mkWorld pathname [].

(** A session: the module is loaded at some location, then the events
    happen in order. *)
Definition session (pathname : string) (evs : list event)
  : completion ((bindings * list (option (element * view))) * world) :=
  (env <- module_init ;;
   outs <- run env evs ;;
   ret (env, outs)) (initial_world pathname).

(** The table owned by the module's router at the end of a session. *)
Definition router_table (pathname : string) (evs : list event)
  : option (list RouteObject) :=
  match session pathname evs with
  | Return ((env, _), w) => option_map routes (nth_error (routers w) (router env))
  | Throw => None
  end.

(** The number of routers constructed by the end of a session. *)
Definition routers_constructed (pathname : string) (evs : list event)
  : option nat :=
  match session pathname evs with
  | Return (_, w) => Some (List.length (routers w))
  | Throw => None
  end.

End AppModule.

(** ** The expected behaviour of the module, in closed form *)

Module Expected.
Import Str React ReactRouter AppModule.

(** The table the module hands to the router. *)
Definition route_table : list RouteObject :=
  [ mkRoute [0] None None
      [ mkRoute [0; 0] (Some "/") (Some (Jsx Home)) [] ] ].

(** The two route objects of the table. *)
Definition home_route : RouteObject :=
  mkRoute [0; 0] (Some "/") (Some (Jsx Home)) [].

Definition wrapper_route : RouteObject :=
  mkRoute [0] None None [home_route].

Definition home_branch : RouteBranch :=
  mkBranch "/" 4 [mkMeta "" 0 wrapper_route; mkMeta "" 0 home_route].

(** The match chain for a pathname made of slashes. *)
Definition home_matches (pathname : string) : list RouteMatch :=
  [ mkMatch "/" "/" wrapper_route;
    mkMatch (joinPaths ["/"; pathname])
            (normalizePathname (joinPaths ["/"; strip_base pathname]))
            home_route ].

(** The world once the module is loaded: one router, holding the table. *)
Definition loaded (loc : string) : world :=
  mkWorld loc [mkRouter route_table "/"].

Definition home_view : view := Shown (RElement (Jsx Home) RNull).

Definition view_at (loc : string) : view :=
  if all_slashes loc then home_view else NoMatch.

(** What a session shows and where it ends, event by event. *)
Definition outcome (ev : event) (loc : string) : option (element * view) :=
  match ev with
  | Mount _ => Some (RouterProvider 0, view_at loc)
  | Navigate _ => None
  end.

Definition move (ev : event) (loc : string) : string :=
  match ev with
  | Mount _ => loc
  | Navigate p => p
  end.

Fixpoint outcomes (evs : list event) (loc : string)
  : list (option (element * view)) :=
  match evs with
  | [] => []
  | ev :: rest => outcome ev loc :: outcomes rest (move ev loc)
  end.

Definition final_location (evs : list event) (loc : string) : string :=
  fold_left (fun l ev => move ev l) evs loc.






(** An event without the arguments of its mount. *)
Definition forget_args (ev : event) : event :=
  match ev with
  | Mount _ => Mount []
  | Navigate p => Navigate p
  end.

End Expected.

(** ** Facts about the table and its matching *)

Section TableFacts.
Import Str React ReactRouter AppModule Expected.

Lemma table_built : createRoutesFromElements route_elements = Some route_table.
Proof. reflexivity. Qed.

Lemma table_branches : flattenRoutes route_table = Some [home_branch].
Proof. reflexivity. Qed.

(** The table stays within the static patterns that [matchPath] covers. *)
Lemma table_static : forallb static_route (all_routes route_table) = true.
Proof. reflexivity. Qed.

Lemma slash_fold (c : ascii) : char_eqb false slash c = is_slash c.
Proof.
  destruct c as [[] [] [] [] [] [] [] []]; reflexivity.
Qed.

Lemma is_slash_eq (c : ascii) : is_slash c = true -> c = slash.
Proof. unfold is_slash. apply Ascii.eqb_eq. Qed.

(** The pattern of the wrapper: any pathname that starts with a slash. *)
Lemma matchPath_open (c : ascii) (r : string) :
  matchPath "" false false (String c r) =
  if is_slash c then Some (mkPathMatch "/" "/") else None.
Proof.
  unfold matchPath. cbn [strip_trailing_slashes strip_leading_slashes strip_literal].
  rewrite slash_fold.
  destruct (is_slash c) eqn:Hc; [| reflexivity].
  apply is_slash_eq in Hc. subst c. reflexivity.
Qed.

(** The pattern of the last route: a slash and then only slashes. *)
Lemma matchPath_end (c : ascii) (r : string) :
  matchPath "" false true (String c r) =
  if is_slash c && all_slashes r
  then Some (mkPathMatch (String c r) (strip_base (String c r)))
  else None.
Proof.
  unfold matchPath. cbn [strip_trailing_slashes strip_leading_slashes strip_literal].
  rewrite slash_fold.
  destruct (is_slash c); [| reflexivity].
  cbn [andb]. destruct (all_slashes r); reflexivity.
Qed.

Lemma match_home_branch (c : ascii) (r : string) :
  matchRouteBranch home_branch (String c r) =
  if is_slash c && all_slashes r then Some (home_matches (String c r))
  else None.
Proof.
  unfold matchRouteBranch, home_branch, routesMeta.
  cbn [matchMetas relativePath route String.eqb Ascii.eqb Bool.eqb].
  rewrite matchPath_open.
  destruct (is_slash c) eqn:Hc; [| reflexivity].
  cbn [andb pm_pathnameBase pm_pathname String.eqb Ascii.eqb Bool.eqb].
  rewrite matchPath_end, Hc.
  cbn [andb]. destruct (all_slashes r); reflexivity.
Qed.

Lemma matchRoutes_table (loc : string) :
  matchRoutes route_table loc =
  Return (if all_slashes loc
          then Some (home_matches (if String.eqb loc "" then "/" else loc))
          else None).
Proof.
  unfold matchRoutes. rewrite table_branches.
  cbn [rankRouteBranches fold_right insertBranch].
  destruct loc as [| c r].
  - reflexivity.
  - cbn [String.eqb firstMatch]. rewrite match_home_branch.
    cbn [all_slashes]. destruct (is_slash c && all_slashes r); reflexivity.
Qed.

Lemma module_init_loaded (loc : string) :
  module_init (initial_world loc) = Return (mkBindings 0, loaded loc).
Proof.
  unfold module_init, bind. rewrite table_built.
  unfold liftOption, ret, createBrowserRouter, route_table.
  fold route_table. rewrite matchRoutes_table. reflexivity.
Qed.

Lemma render_provider (loc : string) :
  render (RouterProvider 0) (loaded loc) = Return (view_at loc, loaded loc).
Proof.
  unfold render, loaded, view_at.
  cbn [nth_error routers routes location].
  rewrite matchRoutes_table.
  destruct (all_slashes loc); reflexivity.
Qed.

Lemma step_loaded (ev : event) (loc : string) :
  step (mkBindings 0) ev (loaded loc) =
  Return (outcome ev loc, loaded (move ev loc)).
Proof.
  destruct ev as [args | p].
  - unfold step, bind. cbn [call App ret router].
    rewrite render_provider. reflexivity.
  - reflexivity.
Qed.

Lemma run_loaded (evs : list event) :
  forall loc,
    run (mkBindings 0) evs (loaded loc) =
    Return (outcomes evs loc, loaded (final_location evs loc)).
Proof.
  induction evs as [| ev rest IH]; intros loc.
  - reflexivity.
  - cbn [run outcomes final_location fold_left]. unfold bind at 1.
    rewrite step_loaded. unfold bind at 1. rewrite IH. reflexivity.
Qed.

Lemma session_loaded (loc : string) (evs : list event) :
  session loc evs =
  Return ((mkBindings 0, outcomes evs loc), loaded (final_location evs loc)).
Proof.
  unfold session, bind. rewrite module_init_loaded, run_loaded. reflexivity.
Qed.

Lemma router_table_eq (loc : string) (evs : list event) :
  router_table loc evs = Some route_table.
Proof. unfold router_table. rewrite session_loaded. reflexivity. Qed.

(** Frame facts that hold in every world, whatever its heap. *)
Lemma App_returns (env : bindings) (args : list jsval) (w : world) :
  call App env args w = Return (RouterProvider (router env), w).
Proof. reflexivity. Qed.

Lemma render_frame (e : element) (w : world) :
  match render e w with
  | Return (_, w') => w' = w
  | Throw => True
  end.
Proof.
  destruct e as [c | p el ch | r]; cbn [render]; auto.
  destruct (nth_error (routers w) r) as [rt |]; auto.
  destruct (matchRoutes (routes rt) (location w)) as [[ms |] |]; auto.
Qed.

Lemma step_frame (env : bindings) (ev : event) (w : world) :
  match step env ev w with
  | Return (_, w') => routers w' = routers w
  | Throw => True
  end.
Proof.
  destruct ev as [args | p]; [| reflexivity].
  unfold step, bind. rewrite App_returns.
  pose proof (render_frame (RouterProvider (router env)) w) as Hr.
  destruct (render (RouterProvider (router env)) w) as [[v w'] |]; auto.
  subst w'. reflexivity.
Qed.

Lemma run_frame (env : bindings) (evs : list event) :
  forall w,
    match run env evs w with
    | Return (_, w') => routers w' = routers w
    | Throw => True
    end.
Proof.
  induction evs as [| ev rest IH]; intros w; [reflexivity |].
  cbn [run]. unfold bind at 1.
  pose proof (step_frame env ev w) as Hs.
  destruct (step env ev w) as [[o w1] |]; auto.
  unfold bind at 1.
  pose proof (IH w1) as Hr.
  destruct (run env rest w1) as [[os w2] |]; auto.
  cbn [ret]. congruence.
Qed.

End TableFacts.

(** ** The properties of the module *)

Section Properties.
Import Str React ReactRouter AppModule Expected.

(** C1.  The table the router is built from has exactly one route entry:
    its path is ["/"] and its page is [<Home />]; the (path, page) pairs
    of the table are this pair and no other, and the router derives
    exactly one branch from it, for the path ["/"]. *)
Theorem route_table_single_entry (loc : string) :
  exists table,
    createRoutesFromElements route_elements = Some table /\
    router_table loc [] = Some table /\
    route_entries table = [mkRoute [0; 0] (Some "/") (Some (Jsx Home)) []] /\
    path_page_pairs table = [("/", Jsx Home)] /\
    (forall p e, In (p, e) (path_page_pairs table) <-> p = "/" /\ e = Jsx Home) /\
    option_map (map branch_path) (flattenRoutes table) = Some ["/"].
Proof.
  exists route_table.
  split; [reflexivity |].
  split; [apply router_table_eq |].
  split; [reflexivity |].
  split; [reflexivity |].
  split; [| reflexivity].
  intros p e. cbn. split.
  - intros [H | []]. injection H as <- <-. auto.
  - intros [-> ->]. left. reflexivity.
Qed.

(** C2.  Whenever the current location of a session is ["/"], the router
    resolves it to the entry with path ["/"] (below its wrapper), whose
    chain renders as [<Home />] with an empty outlet; mounting the root
    component shows exactly this view, which is the view that rendering
    [<Home />] itself gives. *)
Theorem root_location_renders_home
  (loc : string) (evs : list event) (args : list jsval)
  (env : bindings) (outs : list (option (element * view))) (w : world)
  (Hs : session loc evs = Return ((env, outs), w))
  (Hl : location w = "/") :
  (exists table ms,
      router_table loc evs = Some table /\
      matchRoutes table (location w) = Return (Some ms) /\
      map match_route ms =
        [ mkRoute [0] None None [mkRoute [0; 0] (Some "/") (Some (Jsx Home)) []];
          mkRoute [0; 0] (Some "/") (Some (Jsx Home)) [] ] /\
      matched_entries table (location w) =
        [ mkRoute [0; 0] (Some "/") (Some (Jsx Home)) [] ] /\
      renderMatches ms = RElement (Jsx Home) RNull) /\
  step env (Mount args) w =
    Return (Some (RouterProvider (router env),
                  Shown (RElement (Jsx Home) RNull)), w) /\
  render (RouterProvider (router env)) w =
    Return (Shown (RElement (Jsx Home) RNull), w) /\
  render (Jsx Home) w = Return (Shown (RElement (Jsx Home) RNull), w).
Proof.
  rewrite session_loaded in Hs.
  injection Hs as <- _ <-.
  cbn [location loaded] in Hl |- *. rewrite Hl.
  split.
  - exists route_table, (home_matches "/").
    split; [apply router_table_eq |].
    repeat split; reflexivity.
  - split; [rewrite step_loaded; reflexivity |].
    split; [| reflexivity].
    cbn [router]. rewrite render_provider. reflexivity.
Qed.

Lemma root_location_renders_home_witness :
  session "/x" [Mount []; Navigate "/"] =
    Return ((mkBindings 0, [Some (RouterProvider 0, NoMatch); None]),
            mkWorld "/" [mkRouter route_table "/"]) /\
  location (mkWorld "/" [mkRouter route_table "/"]) = "/" /\
  (exists table ms,
      router_table "/x" [Mount []; Navigate "/"] = Some table /\
      matchRoutes table (location (mkWorld "/" [mkRouter route_table "/"])) =
        Return (Some ms) /\
      map match_route ms =
        [ mkRoute [0] None None [mkRoute [0; 0] (Some "/") (Some (Jsx Home)) []];
          mkRoute [0; 0] (Some "/") (Some (Jsx Home)) [] ] /\
      matched_entries table (location (mkWorld "/" [mkRouter route_table "/"])) =
        [ mkRoute [0; 0] (Some "/") (Some (Jsx Home)) [] ] /\
      renderMatches ms = RElement (Jsx Home) RNull) /\
  step (mkBindings 0) (Mount [VStr "props"]) (mkWorld "/" [mkRouter route_table "/"]) =
    Return (Some (RouterProvider (router (mkBindings 0)),
                  Shown (RElement (Jsx Home) RNull)),
            mkWorld "/" [mkRouter route_table "/"]) /\
  render (RouterProvider (router (mkBindings 0)))
         (mkWorld "/" [mkRouter route_table "/"]) =
    Return (Shown (RElement (Jsx Home) RNull),
            mkWorld "/" [mkRouter route_table "/"]) /\
  render (Jsx Home) (mkWorld "/" [mkRouter route_table "/"]) =
    Return (Shown (RElement (Jsx Home) RNull),
            mkWorld "/" [mkRouter route_table "/"]).
Proof.
  split; [reflexivity |].
  split; [reflexivity |].
  apply (root_location_renders_home "/x" [Mount []; Navigate "/"]
           [VStr "props"] (mkBindings 0)
           [Some (RouterProvider 0, NoMatch); None]
           (mkWorld "/" [mkRouter route_table "/"]));
    reflexivity.
Defined.

(** C3, as the code has it.  A pathname that contains a character other
    than a slash resolves to nothing, and the table declares no fallback
    route. *)
Theorem non_slash_location_no_match
  (loc : string) (evs : list event) (pathname : string)
  (H : all_slashes pathname = false) :
  exists table,
    router_table loc evs = Some table /\
    matchRoutes table pathname = Return None /\
    matched_entries table pathname = [] /\
    filter is_fallback_route (all_routes table) = [].
Proof.
  exists route_table.
  split; [apply router_table_eq |].
  unfold matched_entries. rewrite matchRoutes_table, H.
  repeat split; reflexivity.
Qed.

Lemma non_slash_location_no_match_witness :
  all_slashes "/unknown" = false /\
  exists table,
    router_table "/" [] = Some table /\
    matchRoutes table "/unknown" = Return None /\
    matched_entries table "/unknown" = [] /\
    filter is_fallback_route (all_routes table) = [].
Proof.
  split; [reflexivity |].
  apply (non_slash_location_no_match "/" [] "/unknown"). reflexivity.
Defined.

(** C3, as stated, fails: the location ["//"] is not ["/"], and the
    router resolves it to the entry with path ["/"]. *)
Lemma double_slash_resolves_home :
  "//" <> "/" /\
  router_table "//" [] = Some route_table /\
  matchRoutes route_table "//" =
    Return (Some
      [ mkMatch "/" "/"
          (mkRoute [0] None None [mkRoute [0; 0] (Some "/") (Some (Jsx Home)) []]);
        mkMatch "/" "/" (mkRoute [0; 0] (Some "/") (Some (Jsx Home)) []) ]) /\
  matched_entries route_table "//" =
    [ mkRoute [0; 0] (Some "/") (Some (Jsx Home)) [] ].
Proof.
  split; [discriminate |].
  repeat split; reflexivity.
Qed.

(** C4.  No router exists before the module is loaded; loading it
    constructs exactly one; and at the end of every session, whatever the
    number of mounts, there is still exactly one router, the same object
    with the same entries. *)
Theorem router_constructed_once (loc : string) (evs : list event) :
  routers (initial_world loc) = [] /\
  exists env w0 outs w,
    module_init (initial_world loc) = Return (env, w0) /\
    List.length (routers w0) = 1 /\
    run env evs w0 = Return (outs, w) /\
    routers_constructed loc evs = Some 1 /\
    routers w = routers w0 /\
    map (fun rt => route_entries (routes rt)) (routers w) =
      [ [ mkRoute [0; 0] (Some "/") (Some (Jsx Home)) [] ] ].
Proof.
  split; [reflexivity |].
  exists (mkBindings 0), (loaded loc), (outcomes evs loc),
         (loaded (final_location evs loc)).
  split; [apply module_init_loaded |].
  split; [reflexivity |].
  split; [apply run_loaded |].
  split; [unfold routers_constructed; rewrite session_loaded; reflexivity |].
  split; reflexivity.
Qed.

(** C5.  Every location resolves to at most one route entry: at most one
    branch of the router's table matches it, and the match chain holds at
    most one entry. *)
Theorem resolution_at_most_one
  (loc : string) (evs : list event) (pathname : string) :
  exists table branches,
    router_table loc evs = Some table /\
    flattenRoutes table = Some branches /\
    List.length (matchingBranches branches pathname) <= 1 /\
    List.length (matched_entries table pathname) <= 1.
Proof.
  exists route_table, [home_branch].
  split; [apply router_table_eq |].
  split; [apply table_branches |].
  split.
  - unfold matchingBranches. cbn [filter].
    destruct (is_some (matchRouteBranch home_branch pathname)); cbn; lia.
  - unfold matched_entries. rewrite matchRoutes_table.
    destruct (all_slashes pathname); cbn; lia.
Qed.

(** C6.  At the end of every session the route objects of the router's
    table have pairwise distinct paths, and so have its entries and the
    branches derived from it. *)
Theorem paths_unique (loc : string) (evs : list event) :
  exists table branches,
    router_table loc evs = Some table /\
    NoDup (map route_path (all_routes table)) /\
    NoDup (map route_path (route_entries table)) /\
    flattenRoutes table = Some branches /\
    NoDup (map branch_path branches).
Proof.
  exists route_table, [home_branch].
  split; [apply router_table_eq |].
  split.
  - cbn. constructor.
    + intros [H | []]. discriminate H.
    + constructor; [intros [] | constructor].
  - split; [| split; [apply table_branches |]];
      cbn; (constructor; [intros [] | constructor]).
Qed.

(** C7.  No event changes the heap of routers, in any world; and at every
    point of every session the router the module created holds the very
    table it was constructed with. *)
Theorem route_table_never_mutated
  (loc : string) (evs : list event)
  (env' : bindings) (ev : event) (w' : world) :
  match step env' ev w' with
  | Return (_, w'') => routers w'' = routers w'
  | Throw => True
  end /\
  exists env w0 rt outs w,
    module_init (initial_world loc) = Return (env, w0) /\
    nth_error (routers w0) (router env) = Some rt /\
    createRoutesFromElements route_elements = Some (routes rt) /\
    session loc evs = Return ((env, outs), w) /\
    nth_error (routers w) (router env) = Some rt /\
    routers w = routers w0.
Proof.
  split; [apply step_frame |].
  exists (mkBindings 0), (loaded loc), (mkRouter route_table "/"),
         (outcomes evs loc), (loaded (final_location evs loc)).
  split; [apply module_init_loaded |].
  split; [reflexivity |].
  split; [reflexivity |].
  split; [apply session_loaded |].
  split; reflexivity.
Qed.

(** C8.  The module exports one thing, its default export [App], a
    component without parameters; every call returns a [RouterProvider]
    element for the module's router and leaves the world as it was. *)
Theorem App_is_sole_export (loc : string) :
  exports = [("default", App)] /\
  params App = [] /\
  exists env w0,
    module_init (initial_world loc) = Return (env, w0) /\
    nth_error (routers w0) (router env) = Some (mkRouter route_table "/") /\
    forall (args : list jsval) (w : world),
      call App env args w = Return (RouterProvider (router env), w).
Proof.
  split; [reflexivity |].
  split; [reflexivity |].
  exists (mkBindings 0), (loaded loc).
  split; [apply module_init_loaded |].
  split; [reflexivity |].
  intros args w. apply App_returns.
Qed.

(** C9.  The configuration is a tree: one top-level route without path
    and without element, holding one child with path ["/"].  The wrapper
    is no entry, gets no branch of its own, and adds nothing to what a
    match chain shows. *)
Theorem route_tree_shape (loc : string) (evs : list event) :
  exists child wrapper,
    child = mkRoute [0; 0] (Some "/") (Some (Jsx Home)) [] /\
    wrapper = mkRoute [0] None None [child] /\
    createRoutesFromElements route_elements = Some [wrapper] /\
    router_table loc evs = Some [wrapper] /\
    all_routes [wrapper] = [wrapper; child] /\
    is_entry wrapper = false /\
    option_map (map (fun b => map route (routesMeta b))) (flattenRoutes [wrapper])
      = Some [[wrapper; child]] /\
    forall (pn pb : string) (below : list RouteMatch),
      renderMatches (mkMatch pn pb wrapper :: below) = renderMatches below.
Proof.
  exists home_route, wrapper_route.
  split; [reflexivity |].
  split; [reflexivity |].
  split; [reflexivity |].
  split; [apply router_table_eq |].
  repeat split; reflexivity.
Qed.

(** C10.  What [App] returns does not depend on its arguments nor on the
    world it is called in: two calls return the same element, the
    [RouterProvider] of the module's router; and so does every mount of
    every session. *)
Theorem App_input_independent
  (env : bindings) (args1 args2 : list jsval) (w1 w2 : world)
  (loc : string) (evs : list event) :
  (exists e,
      call App env args1 w1 = Return (e, w1) /\
      call App env args2 w2 = Return (e, w2) /\
      e = RouterProvider (router env)) /\
  exists env0 outs w,
    session loc evs = Return ((env0, outs), w) /\
    map (option_map fst) outs =
      map (fun ev =>
             match ev with
             | Mount _ => Some (RouterProvider (router env0))
             | Navigate _ => None
             end) evs.
Proof.
  split.
  - exists (RouterProvider (router env)). repeat split; reflexivity.
  - exists (mkBindings 0), (outcomes evs loc), (loaded (final_location evs loc)).
    split; [apply session_loaded |].
    generalize loc. induction evs as [| ev rest IH]; intros l; [reflexivity |].
    cbn [outcomes map]. rewrite IH. destruct ev; reflexivity.
Qed.

End Properties.

(** ** Further properties of the module *)

Section Sessions.
Import Str React ReactRouter AppModule Expected.

Lemma collapse_after_slash (s : string) :
  all_slashes s = true -> collapse_from true s = "".
Proof.
  induction s as [| c r IH]; [reflexivity |].
  cbn [all_slashes collapse_from]. intros H.
  apply andb_prop in H as [Hc Hr]. rewrite Hc. auto.
Qed.

Lemma strip_base_slashes (c : ascii) (r : string) :
  is_slash c = true -> all_slashes r = true -> strip_base (String c r) = "/".
Proof.
  intros Hc Hr. apply is_slash_eq in Hc. subst c.
  cbn [strip_base]. rewrite Hr.
  destruct r as [| c' r']; reflexivity.
Qed.

Lemma home_matches_slashes (c : ascii) (r : string) :
  is_slash c = true -> all_slashes r = true ->
  home_matches (String c r) =
  [mkMatch "/" "/" wrapper_route; mkMatch "/" "/" home_route].
Proof.
  intros Hc Hr. unfold home_matches.
  rewrite (strip_base_slashes c r Hc Hr).
  apply is_slash_eq in Hc. subst c.
  unfold joinPaths, collapse_slashes. cbn [join_slash append collapse_from].
  cbn. rewrite (collapse_after_slash r Hr). reflexivity.
Qed.


Lemma outcomes_forget (evs : list event) :
  forall loc, outcomes (map forget_args evs) loc = outcomes evs loc.
Proof.
  induction evs as [| ev rest IH]; intros loc; [reflexivity |].
  cbn [map outcomes]. destruct ev; cbn [forget_args outcome move];
    rewrite IH; reflexivity.
Qed.

Lemma final_location_forget (evs : list event) :
  forall loc, final_location (map forget_args evs) loc = final_location evs loc.
Proof.
  unfold final_location.
  induction evs as [| ev rest IH]; intros loc; [reflexivity |].
  cbn [map fold_left]. destruct ev; cbn [forget_args move]; apply IH.
Qed.

(** X1.  At every point of every session the router resolves a pathname
    made only of slashes (the empty one included) to the chain wrapper,
    home entry, both reported at the normalised pathname ["/"]; every
    other pathname resolves to nothing; resolution never throws. *)
Theorem resolution_characterised
  (loc : string) (evs : list event) (pathname : string) :
  exists table,
    router_table loc evs = Some table /\
    matchRoutes table pathname =
      Return
        (if all_slashes pathname
         then Some
           [ mkMatch "/" "/"
               (mkRoute [0] None None
                  [mkRoute [0; 0] (Some "/") (Some (Jsx Home)) []]);
             mkMatch "/" "/" (mkRoute [0; 0] (Some "/") (Some (Jsx Home)) []) ]
         else None).
Proof.
  exists route_table. split; [apply router_table_eq |].
  rewrite matchRoutes_table.
  destruct pathname as [| c r]; [reflexivity |].
  cbn [all_slashes String.eqb].
  destruct (is_slash c) eqn:Hc; [| reflexivity].
  destruct (all_slashes r) eqn:Hr; [| reflexivity].
  cbn [andb]. rewrite (home_matches_slashes c r Hc Hr). reflexivity.
Qed.

(** X2.  After the module is loaded at any pathname, any number of
    mounts with any arguments all return the [RouterProvider] of the
    module's router and all show the same view: what [<Home />] shows when
    the pathname of the load is made only of slashes, the no-match view
    otherwise; the world stays as the load left it. *)
Theorem load_view_characterised
  (loc : string) (argss : list (list jsval)) :
  exists env w,
    session loc (map Mount argss) =
      Return ((env,
               map (fun _ =>
                      Some (RouterProvider (router env),
                            if all_slashes loc
                            then Shown (RElement (Jsx Home) RNull)
                            else NoMatch))
                   argss),
              w) /\
    module_init (initial_world loc) = Return (env, w).
Proof.
  exists (mkBindings 0), (loaded loc).
  split; [| apply module_init_loaded].
  rewrite session_loaded.
  assert (Ho : outcomes (map Mount argss) loc =
               map (fun _ => Some (RouterProvider 0, view_at loc)) argss).
  { induction argss as [| a rest IH]; [reflexivity |].
    cbn [map outcomes outcome move]. rewrite IH. reflexivity. }
  assert (Hf : final_location (map Mount argss) loc = loc).
  { clear Ho. unfold final_location.
    induction argss as [| a rest IH]; [reflexivity |].
    cbn [map fold_left move]. exact IH. }
  rewrite Ho, Hf. reflexivity.
Qed.



(** X4.  The arguments of the mounts reach nothing: two sessions from the
    same location whose events agree once the arguments are forgotten
    return the same elements, show the same views and end in the same
    world. *)
Theorem session_args_irrelevant
  (loc : string) (evs1 evs2 : list event)
  (H : map forget_args evs1 = map forget_args evs2) :
  session loc evs1 = session loc evs2.
Proof.
  rewrite !session_loaded.
  rewrite <- (outcomes_forget evs1), <- (outcomes_forget evs2).
  rewrite <- (final_location_forget evs1), <- (final_location_forget evs2).
  rewrite H. reflexivity.
Qed.

Lemma session_args_irrelevant_witness :
  map forget_args [Mount [VStr "a"]; Navigate "/"; Mount []] =
  map forget_args [Mount [VNum 7; VNull]; Navigate "/"; Mount [VBool true]] /\
  session "/chat" [Mount [VStr "a"]; Navigate "/"; Mount []] =
  session "/chat" [Mount [VNum 7; VNull]; Navigate "/"; Mount [VBool true]].
Proof.
  split; [reflexivity |].
  apply (session_args_irrelevant "/chat"
           [Mount [VStr "a"]; Navigate "/"; Mount []]
           [Mount [VNum 7; VNull]; Navigate "/"; Mount [VBool true]]).
  reflexivity.
Defined.

End Sessions.
